(** * A shallow embedding of the Azle canister: users, stuffs and slots

    The canister declares three [StableBTreeMap]s (src/User/user.ts,
    src/Stuff/stuff.ts, src/Slot/slot.ts) and exports CRUD functions over
    them.  Every exported function runs inside one canister message: it
    reads the message time with [ic.time()], may draw one identifier with
    [uuidv4()], and reads and writes the maps.  The functions are embedded
    as computations of a small state monad over the canister memory, with
    the message environment as a read-only argument. *)

From Stdlib Require Import NArith Ascii String List.
From stdpp Require Import gmap strings list fin_maps sorting.

Local Open Scope string_scope.
Local Open Scope N_scope.

(** ** Values *)

(** [nat64] values of azle are unbounded naturals here; the canister never
    computes with them, it only stores and copies them. *)
Abbreviation nat64 := N.

(** A JavaScript [Date] is represented by the time value it holds. *)
Abbreviation Date := N.

(** The values the properties of a stored object hold. *)
Inductive Value :=
| VStr (s : string)
| VNat64 (n : nat64)
| VDate (d : Date)
| VBool (b : bool).

#[global] Instance Value_eq_dec : EqDecision Value.
Proof. solve_decision. Defined.

(** The number a timestamp value compares as. *)
Definition timeValue (v : Value) : option N :=
  match v with
  | VNat64 n => Some n
  | VDate d => Some d
  | _ => None
  end.

(** A stored object.  The classes [User], [Stuff] and [Slot] are type
    annotations only: what a map holds and answers is an object with
    whatever properties it was built with.  Every object literal of the
    source has an [id], a string; the other properties are kept by name. *)
Module JsObject.
Record t := mk { id : string; props : gmap string Value }.
End JsObject.

Module UserPayload.
Record t := mk { pseudo : string; name : string }.
Definition props (p : t) : gmap string Value :=
  <["name" := VStr (name p)]> (<["pseudo" := VStr (pseudo p)]> ∅).
End UserPayload.

Module User.
Record t := mk {
  id : string;
  pseudo : string;
  name : string;
  createdAt : Date;
  updatedAt : Date
}.
Definition obj (u : t) : JsObject.t :=
  JsObject.mk (id u)
    (<["updatedAt" := VDate (updatedAt u)]>
       (<["createdAt" := VDate (createdAt u)]>
          (UserPayload.props (UserPayload.mk (pseudo u) (name u))))).
End User.

Module StuffPayload.
Record t := mk { description : string; image_url : string; ownerId : string }.
Definition props (p : t) : gmap string Value :=
  <["ownerId" := VStr (ownerId p)]>
    (<["image_url" := VStr (image_url p)]>
       (<["description" := VStr (description p)]> ∅)).
End StuffPayload.

Module Stuff.
Record t := mk {
  id : string;
  description : string;
  image_url : string;
  ownerId : string;
  createdAt : nat64;
  updatedAt : nat64
}.
Definition obj (s : t) : JsObject.t :=
  JsObject.mk (id s)
    (<["updatedAt" := VNat64 (updatedAt s)]>
       (<["createdAt" := VNat64 (createdAt s)]>
          (StuffPayload.props
             (StuffPayload.mk (description s) (image_url s) (ownerId s))))).
End Stuff.

Module SlotPayload.
Record t := mk {
  description : string;
  stuffId : string;
  ownerId : string;
  beginAt : nat64;
  endAt : nat64;
  available : bool
}.
Definition props (p : t) : gmap string Value :=
  <["available" := VBool (available p)]>
    (<["endAt" := VNat64 (endAt p)]>
       (<["beginAt" := VNat64 (beginAt p)]>
          (<["ownerId" := VStr (ownerId p)]>
             (<["stuffId" := VStr (stuffId p)]>
                (<["description" := VStr (description p)]> ∅))))).
End SlotPayload.

Module Slot.
Record t := mk {
  id : string;
  description : string;
  stuffId : string;
  ownerId : string;
  beginAt : nat64;
  endAt : nat64;
  available : bool;
  createdAt : nat64;
  updatedAt : nat64
}.
Definition obj (s : t) : JsObject.t :=
  JsObject.mk (id s)
    (<["updatedAt" := VNat64 (updatedAt s)]>
       (<["createdAt" := VNat64 (createdAt s)]>
          (SlotPayload.props
             (SlotPayload.mk (description s) (stuffId s) (ownerId s)
                (beginAt s) (endAt s) (available s))))).
End Slot.

(** ** The message environment and the monad *)

(** What one message execution reads from outside the canister: the
    system time, which is the same at every [ic.time()] call of one
    message, and the sixteen random bytes that the one [uuidv4()] call of
    the message (no exported function makes two) obtains from its
    generator. *)
Record Env := mkEnv { ic_time : nat64; rng : list N }.

Definition M (S A : Type) : Type := Env -> S -> A * S.

Definition ret {S A} (a : A) : M S A := fun _ s => (a, s).

Definition bind {S A B} (c : M S A) (k : A -> M S B) : M S B :=
  fun env s => let '(a, s') := c env s in k a env s'.

Notation "x <- c ;; k" := (bind c (fun x => k))
  (at level 100, c at next level, right associativity).
Notation "c ;;; k" := (bind c (fun _ => k))
  (at level 100, right associativity).

(** [ic.time()] *)
Module ic.
Definition time {S} : M S nat64 := fun env s => (ic_time env, s).
End ic.

(** ** uuid's [v4]

    The identifier generator of the npm package uuid: sixteen random
    bytes, version and variant bits forced, printed as lower-case hex
    groups separated by dashes. *)

Definition hexDigit (n : N) : ascii :=
  match n with
  | 0 => "0" | 1 => "1" | 2 => "2" | 3 => "3" | 4 => "4" | 5 => "5"
  | 6 => "6" | 7 => "7" | 8 => "8" | 9 => "9" | 10 => "a" | 11 => "b"
  | 12 => "c" | 13 => "d" | 14 => "e" | _ => "f"
  end%char.

Definition byteToHex (b : N) : string :=
  String (hexDigit (b / 16)) (String (hexDigit (b mod 16)) EmptyString).

(** The bytes of the [Uint8Array] the generator fills. *)
Definition rnds (r : list N) (i : nat) : N := nth i r 0 mod 256.

Definition v4_bytes (r : list N) (i : nat) : N :=
  match i with
  | 6%nat => N.lor (N.land (rnds r 6) 15) 64
  | 8%nat => N.lor (N.land (rnds r 8) 63) 128
  | _ => rnds r i
  end.

Definition unsafeStringify (arr : nat -> N) : string :=
  byteToHex (arr 0%nat) +:+ byteToHex (arr 1%nat) +:+
  byteToHex (arr 2%nat) +:+ byteToHex (arr 3%nat) +:+ "-" +:+
  byteToHex (arr 4%nat) +:+ byteToHex (arr 5%nat) +:+ "-" +:+
  byteToHex (arr 6%nat) +:+ byteToHex (arr 7%nat) +:+ "-" +:+
  byteToHex (arr 8%nat) +:+ byteToHex (arr 9%nat) +:+ "-" +:+
  byteToHex (arr 10%nat) +:+ byteToHex (arr 11%nat) +:+
  byteToHex (arr 12%nat) +:+ byteToHex (arr 13%nat) +:+
  byteToHex (arr 14%nat) +:+ byteToHex (arr 15%nat).

Definition v4 (r : list N) : string := unsafeStringify (v4_bytes r).

Definition uuidv4 {S} : M S string := fun env s => (v4 (rng env), s).

(** ** StableBTreeMap

    A map handle gives access to one map held in the canister memory [S].
    The operations are those the source calls: [get], [containsKey],
    [insert], [remove] and [values].  [insert] and [remove] answer the
    previous value, as azle's do; [values] lists in ascending order of the
    keys. *)
Definition byKey {V} (a b : string * V) : Prop := String.leb a.1 b.1 = true.

#[global] Instance byKey_dec {V} (a b : string * V) : Decision (byKey a b).
Proof. unfold byKey. apply _. Defined.

Module StableBTreeMap.
Record t (S V : Type) := mk {
  load : S -> gmap string V;
  store : gmap string V -> S -> S
}.
Arguments mk {S V} _ _.
Arguments load {S V} _ _.
Arguments store {S V} _ _ _.

Section Operations.
Context {S V : Type} (m : t S V).

Definition get (key : string) : M S (option V) :=
  fun _ s => (load m s !! key, s).

Definition containsKey (key : string) : M S bool :=
  fun _ s => (bool_decide (is_Some (load m s !! key)), s).

Definition insert (key : string) (value : V) : M S (option V) :=
  fun _ s => (load m s !! key, store m (<[key := value]> (load m s)) s).

Definition remove (key : string) : M S (option V) :=
  fun _ s => (load m s !! key, store m (delete key (load m s)) s).

Definition values : M S (list V) :=
  fun _ s => ((merge_sort byKey (map_to_list (load m s))).*2, s).
End Operations.
End StableBTreeMap.

(** ** The canister memory

    [user.ts], [stuff.ts] and [slot.ts] each construct their map with
    [StableBTreeMap<string, ...>(0)]: the argument is the id of the stable
    memory the map lives on, and it is 0 in all three.  The three handles
    [usersStorage], [stuffsStorage] and [slotsStorage] are therefore
    handles of one and the same map, the one on memory 0, and a record
    written through one of them is read through the other two. *)
Record World := mkWorld { memory0 : gmap string JsObject.t }.

Definition initial : World := mkWorld ∅.

Definition onMemory0 : StableBTreeMap.t World JsObject.t :=
  StableBTreeMap.mk memory0 (fun m _ => mkWorld m).

Definition usersStorage : StableBTreeMap.t World JsObject.t := onMemory0.

Definition stuffsStorage : StableBTreeMap.t World JsObject.t := onMemory0.

Definition slotsStorage : StableBTreeMap.t World JsObject.t := onMemory0.

(** ** src/User/user.ts

    An object literal [{...a, ...b, k: v}] has the properties of [a],
    overwritten by those of [b], overwritten by [k]: on property maps,
    [<[k := v]> (b ∪ a)]. *)

Section Canister.

(** [getCurrentDate] builds [new Date(Number(ic.time()) / 100_000)]: the
    time read is converted to a double, divided, and clipped by [Date] to
    whole milliseconds.  The development only needs that this is a
    function of the time read; its rounding steps are not modelled. *)
Variable toDate : nat64 -> Date.

Definition getCurrentDate : M World Date :=
  timestamp <- ic.time ;; ret (toDate timestamp).

Definition getUsers : M World (list JsObject.t) :=
  StableBTreeMap.values usersStorage.

Definition getUser (id : string) : M World (option JsObject.t) :=
  StableBTreeMap.get usersStorage id.

Definition checkUser (id : string) : M World bool :=
  StableBTreeMap.containsKey usersStorage id.

Definition checkPseudo (pseudo : string) : M World bool :=
  all <- StableBTreeMap.values usersStorage ;;
  ret (existsb
         (fun user =>
            bool_decide (JsObject.props user !! "pseudo" = Some (VStr pseudo)))
         all).

Definition addUser (user : UserPayload.t) : M World JsObject.t :=
  id <- uuidv4 ;;
  created <- getCurrentDate ;;
  updated <- getCurrentDate ;;
  let newUser :=
    JsObject.mk id
      (<["updatedAt" := VDate updated]>
         (<["createdAt" := VDate created]> (UserPayload.props user))) in
  StableBTreeMap.insert usersStorage (JsObject.id newUser) newUser ;;;
  ret newUser.

Definition updateUser (id : string) (user : UserPayload.t)
  : M World (option JsObject.t) :=
  storedUser <- StableBTreeMap.get usersStorage id ;;
  match storedUser with
  | Some stored =>
      updated <- getCurrentDate ;;
      let updatedUser :=
        JsObject.mk (JsObject.id stored)
          (<["updatedAt" := VDate updated]>
             (UserPayload.props user ∪ JsObject.props stored)) in
      StableBTreeMap.insert usersStorage (JsObject.id updatedUser) updatedUser ;;;
      ret tt
  | None => ret tt
  end ;;;
  StableBTreeMap.get usersStorage id.

Definition removeUser (id : string) : M World (option JsObject.t) :=
  StableBTreeMap.remove usersStorage id.

(** ** src/Stuff/stuff.ts *)

Definition getStuffs : M World (list JsObject.t) :=
  StableBTreeMap.values stuffsStorage.

Definition getStuff (id : string) : M World (option JsObject.t) :=
  StableBTreeMap.get stuffsStorage id.

Definition checkStuffId (id : string) : M World bool :=
  StableBTreeMap.containsKey stuffsStorage id.

Definition createStuff (stuff : StuffPayload.t) : M World JsObject.t :=
  id <- uuidv4 ;;
  created <- ic.time ;;
  updated <- ic.time ;;
  let newStuff :=
    JsObject.mk id
      (<["updatedAt" := VNat64 updated]>
         (<["createdAt" := VNat64 created]> (StuffPayload.props stuff))) in
  StableBTreeMap.insert stuffsStorage (JsObject.id newStuff) newStuff ;;;
  ret newStuff.

Definition updateStuff (id : string) (payload : StuffPayload.t)
  : M World (JsObject.t + string) :=
  stuff <- StableBTreeMap.get stuffsStorage id ;;
  match stuff with
  | Some stored =>
      updated <- ic.time ;;
      let updatedStuff :=
        JsObject.mk (JsObject.id stored)
          (<["updatedAt" := VNat64 updated]>
             (StuffPayload.props payload ∪ JsObject.props stored)) in
      StableBTreeMap.insert stuffsStorage (JsObject.id stored) updatedStuff ;;;
      ret (inl updatedStuff)
  | None => ret (inr ("Stuff with id=" +:+ id +:+ " not found"))
  end.

Definition transferStuffOwnability (id toOwnerId : string)
  : M World (JsObject.t + string) :=
  stuff <- StableBTreeMap.get stuffsStorage id ;;
  proceed <- match stuff with
             | Some _ => checkUser toOwnerId
             | None => ret false
             end ;;
  match stuff, proceed with
  | Some stored, true =>
      updated <- ic.time ;;
      let updatedStuff :=
        JsObject.mk (JsObject.id stored)
          (<["updatedAt" := VNat64 updated]>
             (<["ownerId" := VStr toOwnerId]> (JsObject.props stored))) in
      StableBTreeMap.insert stuffsStorage (JsObject.id stored) updatedStuff ;;;
      ret (inl updatedStuff)
  | _, _ => ret (inr ("Stuff with id=" +:+ id +:+ " not found"))
  end.

Definition deleteStuff (id : string) : M World (option JsObject.t) :=
  StableBTreeMap.remove stuffsStorage id.

(** ** src/Slot/slot.ts *)

Definition getSlots : M World (list JsObject.t) :=
  StableBTreeMap.values slotsStorage.

Definition getSlot (id : string) : M World (option JsObject.t) :=
  StableBTreeMap.get slotsStorage id.

Definition checkSlotId (id : string) : M World bool :=
  StableBTreeMap.containsKey slotsStorage id.

Definition addSlot (payload : SlotPayload.t) : M World (JsObject.t + string) :=
  knownUser <- checkUser (SlotPayload.ownerId payload) ;;
  if negb knownUser then
    ret (inr ("Can't create slot: no user found matching id="
              +:+ SlotPayload.ownerId payload))
  else
  knownStuff <- checkStuffId (SlotPayload.stuffId payload) ;;
  if knownStuff then
    ret (inr ("Can't create slot: no stuff matching id="
              +:+ SlotPayload.stuffId payload))
  else
  id <- uuidv4 ;;
  created <- ic.time ;;
  updated <- ic.time ;;
  let slot :=
    JsObject.mk id
      (<["updatedAt" := VNat64 updated]>
         (<["createdAt" := VNat64 created]> (SlotPayload.props payload))) in
  StableBTreeMap.insert slotsStorage (JsObject.id slot) slot ;;;
  ret (inl slot).

Definition updateSlot (id : string) (payload : SlotPayload.t)
  : M World (JsObject.t + string) :=
  slot <- StableBTreeMap.get slotsStorage id ;;
  match slot with
  | Some stored =>
      knownUser <- checkUser (SlotPayload.ownerId payload) ;;
      if negb knownUser then
        ret (inr ("can't update slot: no user matching id="
                  +:+ SlotPayload.ownerId payload))
      else
      knownStuff <- checkStuffId (SlotPayload.stuffId payload) ;;
      if negb knownStuff then
        ret (inr ("can't update slot: no stuff matching id="
                  +:+ SlotPayload.stuffId payload))
      else
      updated <- ic.time ;;
      let updatedSlot :=
        JsObject.mk (JsObject.id stored)
          (<["updatedAt" := VNat64 updated]>
             (SlotPayload.props payload ∪ JsObject.props stored)) in
      StableBTreeMap.insert slotsStorage id updatedSlot ;;;
      ret (inl updatedSlot)
  | None => ret (inr ("can't update slot: no slot matching id=" +:+ id))
  end.

Definition removeSlot (id : string) : M World (option JsObject.t) :=
  StableBTreeMap.remove slotsStorage id.

(** ** Histories of the canister

    The update calls a client can make, and the memories the canister can
    be in: it starts with an empty map, and every message it executes
    reads a system time that is not before the time of the previous one
    (the system clock never goes back). *)
Inductive Call :=
| AddUser (user : UserPayload.t)
| UpdateUser (id : string) (user : UserPayload.t)
| RemoveUser (id : string)
| CreateStuff (stuff : StuffPayload.t)
| UpdateStuff (id : string) (payload : StuffPayload.t)
| TransferStuffOwnability (id toOwnerId : string)
| DeleteStuff (id : string)
| AddSlot (payload : SlotPayload.t)
| UpdateSlot (id : string) (payload : SlotPayload.t)
| RemoveSlot (id : string).

Definition perform (c : Call) : M World unit :=
  match c with
  | AddUser user => addUser user ;;; ret tt
  | UpdateUser id user => updateUser id user ;;; ret tt
  | RemoveUser id => removeUser id ;;; ret tt
  | CreateStuff stuff => createStuff stuff ;;; ret tt
  | UpdateStuff id payload => updateStuff id payload ;;; ret tt
  | TransferStuffOwnability id toOwnerId =>
      transferStuffOwnability id toOwnerId ;;; ret tt
  | DeleteStuff id => deleteStuff id ;;; ret tt
  | AddSlot payload => addSlot payload ;;; ret tt
  | UpdateSlot id payload => updateSlot id payload ;;; ret tt
  | RemoveSlot id => removeSlot id ;;; ret tt
  end.

Inductive reachable : nat64 -> World -> Prop :=
| reachable_initial : reachable 0 initial
| reachable_step t w env c :
    reachable t w -> t <= ic_time env ->
    reachable (ic_time env) (snd (perform c env w)).

(** The histories in which the identifier generator keeps its promise: the
    identifier a message can draw differs from those of all the messages
    before it.  [ids] lists the identifiers of the messages so far. *)
Inductive served : list string -> nat64 -> World -> Prop :=
| served_initial : served [] 0 initial
| served_step ids t w env c :
    served ids t w -> t <= ic_time env -> v4 (rng env) ∉ ids ->
    served (v4 (rng env) :: ids) (ic_time env) (snd (perform c env w)).

End Canister.

(** Every record is stored under its own id. *)
Definition keyed (w : World) : Prop :=
  map_Forall (fun k o => JsObject.id o = k) (memory0 w).

(** Every key was made by [v4]. *)
Definition minted (w : World) : Prop :=
  map_Forall (fun k (_ : JsObject.t) => exists r, k = v4 r) (memory0 w).

(** ** The variant of user.ts that answers with [Result]

    The source file holds a second version of the module, whose [getUser]
    and [updateUser] answer [Result] values.  It has its own
    [usersStorage]. *)
Inductive Result (A E : Type) : Type :=
| Ok (a : A)
| Err (e : E).
Arguments Ok {A E} _.
Arguments Err {A E} _.

(** An expression statement: the value is computed and dropped. *)
Definition discard {S A} (_ : A) : M S unit := ret tt.

Module UserResult.

(** The object literal of this [updateUser] spreads [storedUser], which is
    [undefined] when the id is not stored: the object it builds then has
    no [createdAt]. *)
Module User.
Record t := mk {
  id : string;
  pseudo : string;
  name : string;
  createdAt : option Date;
  updatedAt : Date
}.
End User.

Definition usersStorage : StableBTreeMap.t (gmap string User.t) User.t :=
    StableBTreeMap.mk (fun s => s) (fun m _ => m).

Section Operations.
Variable toDate : nat64 -> Date.

Definition getCurrentDate : M (gmap string User.t) Date :=
  timestamp <- ic.time ;; ret (toDate timestamp).

Definition getUsers : M (gmap string User.t) (list User.t) :=
  StableBTreeMap.values usersStorage.

Definition checkUser (id : string) : M (gmap string User.t) bool :=
  StableBTreeMap.containsKey usersStorage id.

Definition getUser (id : string)
  : M (gmap string User.t) (Result (Result (option User.t) string) string) :=
  found <- StableBTreeMap.get usersStorage id ;;
  let user : Result (option User.t) string := Ok found in
  known <- checkUser id ;;
  if negb known then ret (Err ("no user found matching id=" +:+ id))
  else ret (Ok user).

Definition addUser (user : UserPayload.t) : M (gmap string User.t) User.t :=
  id <- uuidv4 ;;
  created <- getCurrentDate ;;
  updated <- getCurrentDate ;;
  let newUser :=
    {| User.id := id;
       User.pseudo := UserPayload.pseudo user;
       User.name := UserPayload.name user;
       User.createdAt := Some created;
       User.updatedAt := updated |} in
  StableBTreeMap.insert usersStorage (User.id newUser) newUser ;;;
  ret newUser.

Definition updateUser (id : string) (user : UserPayload.t)
  : M (gmap string User.t) (Result User.t string) :=
  storedUser <- StableBTreeMap.get usersStorage id ;;
  known <- checkUser id ;;
  (if negb known
   then discard (Err ("no user matching id=" +:+ id +:+ " found")
                 : Result User.t string)
   else ret tt) ;;;
  updated <- getCurrentDate ;;
  let updatedUser :=
    {| User.id := match storedUser with
                  | Some stored => User.id stored
                  | None => id
                  end;
       User.pseudo := UserPayload.pseudo user;
       User.name := UserPayload.name user;
       User.createdAt := match storedUser with
                         | Some stored => User.createdAt stored
                         | None => None
                         end;
       User.updatedAt := updated |} in
  StableBTreeMap.insert usersStorage id updatedUser ;;;
  ret (Ok updatedUser).
End Operations.

End UserResult.

(** ** The records and messages the functions build

    Names for the object literals and template strings of the source, used
    to state what each function answers and stores. *)

Definition newUser (toDate : nat64 -> Date) (user : UserPayload.t) (env : Env)
  : User.t :=
  {| User.id := v4 (rng env);
     User.pseudo := UserPayload.pseudo user;
     User.name := UserPayload.name user;
     User.createdAt := toDate (ic_time env);
     User.updatedAt := toDate (ic_time env) |}.

Definition mergeUser (toDate : nat64 -> Date) (stored : JsObject.t)
  (user : UserPayload.t) (env : Env) : JsObject.t :=
  JsObject.mk (JsObject.id stored)
    (<["updatedAt" := VDate (toDate (ic_time env))]>
       (UserPayload.props user ∪ JsObject.props stored)).

Definition stuffNotFound (id : string) : string :=
  "Stuff with id=" +:+ id +:+ " not found".

Definition newStuff (stuff : StuffPayload.t) (env : Env) : Stuff.t :=
  {| Stuff.id := v4 (rng env);
     Stuff.description := StuffPayload.description stuff;
     Stuff.image_url := StuffPayload.image_url stuff;
     Stuff.ownerId := StuffPayload.ownerId stuff;
     Stuff.createdAt := ic_time env;
     Stuff.updatedAt := ic_time env |}.

Definition mergeStuff (stored : JsObject.t) (payload : StuffPayload.t)
  (env : Env) : JsObject.t :=
  JsObject.mk (JsObject.id stored)
    (<["updatedAt" := VNat64 (ic_time env)]>
       (StuffPayload.props payload ∪ JsObject.props stored)).

Definition reownStuff (stored : JsObject.t) (toOwnerId : string) (env : Env)
  : JsObject.t :=
  JsObject.mk (JsObject.id stored)
    (<["updatedAt" := VNat64 (ic_time env)]>
       (<["ownerId" := VStr toOwnerId]> (JsObject.props stored))).

Definition noUserForSlot (payload : SlotPayload.t) : string :=
  "Can't create slot: no user found matching id=" +:+ SlotPayload.ownerId payload.

Definition noStuffForSlot (payload : SlotPayload.t) : string :=
  "Can't create slot: no stuff matching id=" +:+ SlotPayload.stuffId payload.

Definition newSlot (payload : SlotPayload.t) (env : Env) : Slot.t :=
  {| Slot.id := v4 (rng env);
     Slot.description := SlotPayload.description payload;
     Slot.stuffId := SlotPayload.stuffId payload;
     Slot.ownerId := SlotPayload.ownerId payload;
     Slot.beginAt := SlotPayload.beginAt payload;
     Slot.endAt := SlotPayload.endAt payload;
     Slot.available := SlotPayload.available payload;
     Slot.createdAt := ic_time env;
     Slot.updatedAt := ic_time env |}.

Definition noSlotToUpdate (id : string) : string :=
  "can't update slot: no slot matching id=" +:+ id.

Definition noUserToUpdateSlot (payload : SlotPayload.t) : string :=
  "can't update slot: no user matching id=" +:+ SlotPayload.ownerId payload.

Definition noStuffToUpdateSlot (payload : SlotPayload.t) : string :=
  "can't update slot: no stuff matching id=" +:+ SlotPayload.stuffId payload.

Definition mergeSlot (stored : JsObject.t) (payload : SlotPayload.t)
  (env : Env) : JsObject.t :=
  JsObject.mk (JsObject.id stored)
    (<["updatedAt" := VNat64 (ic_time env)]>
       (SlotPayload.props payload ∪ JsObject.props stored)).

(** ** Sample messages and memories

    The environments of three successive messages, a memory with one user
    made by [addUser], and the memory after that user has registered a
    stuff with [createStuff].  [sampleDate] is a conversion of times to
    dates on which the samples are evaluated. *)
Definition sampleDate (t : nat64) : Date := t / 100000.

Definition env_a : Env :=
  mkEnv 1700000000000 [1; 2; 3; 4; 5; 6; 7; 8; 9; 10; 11; 12; 13; 14; 15; 16].
Definition env_b : Env :=
  mkEnv 1700000500000 [17; 18; 19; 20; 21; 22; 23; 24; 25; 26; 27; 28; 29; 30; 31; 32].
Definition env_c : Env :=
  mkEnv 1700000900000 [33; 34; 35; 36; 37; 38; 39; 40; 41; 42; 43; 44; 45; 46; 47; 48].

Definition bob : UserPayload.t := UserPayload.mk "bob" "Bob".
Definition bobId : string := "01020304-0506-4708-890a-0b0c0d0e0f10".
Definition drillId : string := "11121314-1516-4718-991a-1b1c1d1e1f20".

Definition oneUser : World := snd (addUser sampleDate bob env_a initial).

Definition drill : StuffPayload.t :=
  StuffPayload.mk "a drill" "https://example.org/drill.png" bobId.

Definition userAndStuff : World := snd (createStuff drill env_b oneUser).

(** The two records of [userAndStuff]. *)
Definition bobRecord : JsObject.t := User.obj (newUser sampleDate bob env_a).
Definition drillRecord : JsObject.t := Stuff.obj (newStuff drill env_b).

(** * Properties *)

(** Closes goals whose hypotheses about lookups contradict one another, or
    whose conclusion follows from them by rewriting. *)
Ltac settle_lookups :=
  repeat match goal with
         | H : is_Some None |- _ => destruct H as [? H]; discriminate H
         | H : Some _ = None |- _ => discriminate H
         | H : None = Some _ |- _ => discriminate H
         | H : inl _ = inr _ |- _ => discriminate H
         | H : inr _ = inl _ |- _ => discriminate H
         | H : Some _ = Some _ |- _ => injection H as H; subst
         end;
  eauto; try congruence.

(** ** The identifier generator *)

Lemma v4_length r : String.length (v4 r) = 36%nat.
Proof. reflexivity. Qed.

Lemma v4_nonempty r : v4 r <> "".
Proof. intros H. apply (f_equal String.length) in H. discriminate H. Qed.

(** ** What each exported function computes

    The monadic definitions above, run on an environment and a memory. *)

Lemma containsKey_run {S V} (m : StableBTreeMap.t S V) key env s :
  StableBTreeMap.containsKey m key env s =
  (match StableBTreeMap.load m s !! key with Some _ => true | None => false end, s).
Proof.
  unfold StableBTreeMap.containsKey.
  destruct (StableBTreeMap.load m s !! key); reflexivity.
Qed.

Lemma values_run {S V} (m : StableBTreeMap.t S V) env s (x : V) :
  x ∈ fst (StableBTreeMap.values m env s) <->
  exists k, StableBTreeMap.load m s !! k = Some x.
Proof.
  unfold StableBTreeMap.values. cbn.
  rewrite merge_sort_Permutation, list_elem_of_fmap. split.
  - intros ([k y] & -> & Hin). exists k. apply elem_of_map_to_list in Hin. exact Hin.
  - intros [k Hk]. exists (k, x). split; [reflexivity|].
    apply elem_of_map_to_list. exact Hk.
Qed.

Lemma checkUser_run id env w :
  checkUser id env w =
  (match memory0 w !! id with Some _ => true | None => false end, w).
Proof. unfold checkUser. rewrite containsKey_run. reflexivity. Qed.

Lemma checkStuffId_run id env w :
  checkStuffId id env w =
  (match memory0 w !! id with Some _ => true | None => false end, w).
Proof. unfold checkStuffId. rewrite containsKey_run. reflexivity. Qed.

Lemma getUser_run id env w : getUser id env w = (memory0 w !! id, w).
Proof. reflexivity. Qed.

Lemma getStuff_run id env w : getStuff id env w = (memory0 w !! id, w).
Proof. reflexivity. Qed.

Lemma getSlot_run id env w : getSlot id env w = (memory0 w !! id, w).
Proof. reflexivity. Qed.

Lemma addUser_run toDate user env w :
  addUser toDate user env w =
  (User.obj (newUser toDate user env),
   mkWorld (<[v4 (rng env) := User.obj (newUser toDate user env)]> (memory0 w))).
Proof. reflexivity. Qed.

Lemma updateUser_run toDate id user env w :
  updateUser toDate id user env w =
  match memory0 w !! id with
  | None => (None, w)
  | Some stored =>
      let m := <[JsObject.id stored := mergeUser toDate stored user env]> (memory0 w) in
      (m !! id, mkWorld m)
  end.
Proof.
  unfold updateUser, bind, StableBTreeMap.get.
  cbn [StableBTreeMap.load usersStorage onMemory0].
  destruct (memory0 w !! id) eqn:E; cbn; [reflexivity|].
  rewrite E. destruct w; reflexivity.
Qed.

Lemma removeUser_run id env w :
  removeUser id env w = (memory0 w !! id, mkWorld (delete id (memory0 w))).
Proof. reflexivity. Qed.

Lemma createStuff_run stuff env w :
  createStuff stuff env w =
  (Stuff.obj (newStuff stuff env),
   mkWorld (<[v4 (rng env) := Stuff.obj (newStuff stuff env)]> (memory0 w))).
Proof. reflexivity. Qed.

Lemma updateStuff_run id payload env w :
  updateStuff id payload env w =
  match memory0 w !! id with
  | None => (inr (stuffNotFound id), w)
  | Some stored =>
      (inl (mergeStuff stored payload env),
       mkWorld (<[JsObject.id stored := mergeStuff stored payload env]> (memory0 w)))
  end.
Proof.
  unfold updateStuff, bind, StableBTreeMap.get.
  cbn [StableBTreeMap.load stuffsStorage onMemory0].
  destruct (memory0 w !! id); reflexivity.
Qed.

Lemma transferStuffOwnability_run id toOwnerId env w :
  transferStuffOwnability id toOwnerId env w =
  match memory0 w !! id, memory0 w !! toOwnerId with
  | Some stored, Some _ =>
      (inl (reownStuff stored toOwnerId env),
       mkWorld (<[JsObject.id stored := reownStuff stored toOwnerId env]> (memory0 w)))
  | _, _ => (inr (stuffNotFound id), w)
  end.
Proof.
  unfold transferStuffOwnability, bind, StableBTreeMap.get.
  cbn [StableBTreeMap.load stuffsStorage onMemory0].
  destruct (memory0 w !! id); [|reflexivity].
  rewrite checkUser_run.
  destruct (memory0 w !! toOwnerId); reflexivity.
Qed.

Lemma deleteStuff_run id env w :
  deleteStuff id env w = (memory0 w !! id, mkWorld (delete id (memory0 w))).
Proof. reflexivity. Qed.

Lemma addSlot_run payload env w :
  addSlot payload env w =
  match memory0 w !! SlotPayload.ownerId payload with
  | None => (inr (noUserForSlot payload), w)
  | Some _ =>
      match memory0 w !! SlotPayload.stuffId payload with
      | Some _ => (inr (noStuffForSlot payload), w)
      | None =>
          (inl (Slot.obj (newSlot payload env)),
           mkWorld (<[v4 (rng env) := Slot.obj (newSlot payload env)]> (memory0 w)))
      end
  end.
Proof.
  unfold addSlot, bind. rewrite checkUser_run.
  destruct (memory0 w !! SlotPayload.ownerId payload); [|reflexivity].
  cbn [negb]. rewrite checkStuffId_run.
  destruct (memory0 w !! SlotPayload.stuffId payload); reflexivity.
Qed.

Lemma updateSlot_run id payload env w :
  updateSlot id payload env w =
  match memory0 w !! id with
  | None => (inr (noSlotToUpdate id), w)
  | Some stored =>
      match memory0 w !! SlotPayload.ownerId payload with
      | None => (inr (noUserToUpdateSlot payload), w)
      | Some _ =>
          match memory0 w !! SlotPayload.stuffId payload with
          | None => (inr (noStuffToUpdateSlot payload), w)
          | Some _ =>
              (inl (mergeSlot stored payload env),
               mkWorld (<[id := mergeSlot stored payload env]> (memory0 w)))
          end
      end
  end.
Proof.
  unfold updateSlot, bind, StableBTreeMap.get.
  cbn [StableBTreeMap.load slotsStorage onMemory0].
  destruct (memory0 w !! id); [|reflexivity].
  rewrite checkUser_run.
  destruct (memory0 w !! SlotPayload.ownerId payload); [|reflexivity].
  cbn [negb]. rewrite checkStuffId_run.
  destruct (memory0 w !! SlotPayload.stuffId payload); reflexivity.
Qed.

Lemma removeSlot_run id env w :
  removeSlot id env w = (memory0 w !! id, mkWorld (delete id (memory0 w))).
Proof. reflexivity. Qed.

Lemma world_eta w : mkWorld (memory0 w) = w.
Proof. destruct w; reflexivity. Qed.

(** ** Invariants of the canister's histories *)

Lemma run_discarding {S A} (c : M S A) env s :
  snd ((c ;;; ret tt) env s) = snd (c env s).
Proof. unfold bind, ret. destruct (c env s); reflexivity. Qed.

(** Runs the call of a [perform] and splits on the lookups it makes. *)
Ltac run_call :=
  unfold perform; rewrite run_discarding;
  rewrite ?addUser_run, ?updateUser_run, ?removeUser_run, ?createStuff_run,
    ?updateStuff_run, ?transferStuffOwnability_run, ?deleteStuff_run,
    ?addSlot_run, ?updateSlot_run, ?removeSlot_run;
  repeat match goal with
         | |- context [match ?m !! ?k with _ => _ end] =>
             let E := fresh "E" in destruct (m !! k) eqn:E
         end;
  cbn [fst snd memory0].

Lemma perform_keyed toDate c env w :
  keyed w -> keyed (snd (perform toDate c env w)).
Proof.
  unfold keyed. intros Hk.
  destruct c; run_call; auto;
    try (apply map_Forall_delete; assumption);
    apply map_Forall_insert_2; auto; cbn.
  match goal with H : memory0 w !! id = Some _ |- _ => exact (Hk _ _ H) end.
Qed.

Lemma reachable_keyed toDate t w : reachable toDate t w -> keyed w.
Proof.
  induction 1 as [|t w env c _ IH _].
  - apply map_Forall_empty.
  - apply perform_keyed, IH.
Qed.

Lemma perform_minted toDate c env w :
  keyed w -> minted w -> minted (snd (perform toDate c env w)).
Proof.
  unfold keyed, minted. intros Hk Hm.
  destruct c; run_call; auto;
    try (apply map_Forall_delete; assumption);
    apply map_Forall_insert_2; auto; cbn; eauto.
  all: match goal with H : memory0 _ !! _ = Some ?o |- exists r, JsObject.id ?o = _ =>
         rewrite (Hk _ _ H); exact (Hm _ _ H) end.
Qed.

Lemma reachable_minted toDate t w : reachable toDate t w -> minted w.
Proof.
  induction 1 as [|t w env c Hr IH _].
  - apply map_Forall_empty.
  - apply perform_minted; [|exact IH]. apply (reachable_keyed toDate t), Hr.
Qed.

Lemma served_reachable toDate ids t w :
  served toDate ids t w -> reachable toDate t w.
Proof.
  induction 1 as [|ids t w env c _ IH Hle _].
  - apply reachable_initial.
  - apply (reachable_step toDate t); assumption.
Qed.

(** A call stores under the identifier of its message or under a key that
    was there before. *)
Lemma perform_keys toDate c env w k :
  keyed w ->
  is_Some (memory0 (snd (perform toDate c env w)) !! k) ->
  k = v4 (rng env) \/ is_Some (memory0 w !! k).
Proof.
  unfold keyed. intros Hk.
  destruct c; run_call; auto;
    rewrite ?lookup_delete_is_Some, ?lookup_insert_is_Some;
    try (intros [? ?]; auto; fail);
    intros [<-|[_ H]]; auto; right; cbn.
  all: try (match goal with H : memory0 _ !! _ = Some ?o |- is_Some (memory0 _ !! JsObject.id ?o) =>
              rewrite (Hk _ _ H), H; eauto end).
  all: eauto.
Qed.

Lemma served_keys toDate ids t w k :
  served toDate ids t w -> is_Some (memory0 w !! k) -> k ∈ ids.
Proof.
  induction 1 as [|ids t w env c Hs IH _ _]; intros Hk.
  - cbn in Hk. rewrite lookup_empty in Hk. destruct Hk; discriminate.
  - apply perform_keys in Hk;
      [|apply (reachable_keyed toDate t), (served_reachable toDate ids), Hs].
    destruct Hk as [->|Hk]; [left|right; auto].
Qed.

(** ** The sample memories *)

Lemma oneUser_memory : memory0 oneUser = {[ bobId := bobRecord ]}.
Proof. reflexivity. Qed.

Lemma userAndStuff_memory :
  memory0 userAndStuff = <[drillId := drillRecord]> {[ bobId := bobRecord ]}.
Proof. reflexivity. Qed.

Lemma oneUser_reachable : reachable sampleDate (ic_time env_a) oneUser.
Proof.
  apply (reachable_step sampleDate 0 initial env_a (AddUser bob)).
  - apply reachable_initial.
  - vm_compute. discriminate.
Qed.

Lemma userAndStuff_reachable : reachable sampleDate (ic_time env_b) userAndStuff.
Proof.
  apply (reachable_step sampleDate (ic_time env_a) oneUser env_b (CreateStuff drill)).
  - apply oneUser_reachable.
  - vm_compute. discriminate.
Qed.

Lemma bobId_generated :
  JsObject.id (fst (addUser sampleDate bob env_a initial)) = bobId.
Proof. reflexivity. Qed.

Lemma drillId_generated :
  JsObject.id (fst (createStuff drill env_b oneUser)) = drillId.
Proof. reflexivity. Qed.

Lemma userAndStuff_served :
  served sampleDate [drillId; bobId] (ic_time env_b) userAndStuff.
Proof.
  apply (served_step sampleDate [bobId] (ic_time env_a) oneUser env_b
           (CreateStuff drill)).
  - apply (served_step sampleDate [] 0 initial env_a (AddUser bob)).
    + apply served_initial.
    + vm_compute. discriminate.
    + apply not_elem_of_nil.
  - vm_compute. discriminate.
  - intros H. apply elem_of_cons in H as [H|H]; [discriminate H|].
    apply not_elem_of_nil in H. exact H.
Qed.

(** ** Slots: creation *)

(** When the owner id is a key and the stuff id is not, [addSlot] stores
    the slot. *)
Lemma addSlot_unknown_stuff (payload : SlotPayload.t) (env : Env) (w : World) :
  is_Some (memory0 w !! SlotPayload.ownerId payload) ->
  memory0 w !! SlotPayload.stuffId payload = None ->
  addSlot payload env w =
  (inl (Slot.obj (newSlot payload env)),
   mkWorld (<[v4 (rng env) := Slot.obj (newSlot payload env)]> (memory0 w))).
Proof.
  intros [u Hu] Hs. rewrite addSlot_run, Hu, Hs. reflexivity.
Qed.

(** When both the owner id and the stuff id are keys, [addSlot] answers the
    message of a missing stuff and stores nothing. *)
Lemma addSlot_known_references (payload : SlotPayload.t) (env : Env) (w : World) :
  is_Some (memory0 w !! SlotPayload.ownerId payload) ->
  is_Some (memory0 w !! SlotPayload.stuffId payload) ->
  addSlot payload env w = (inr (noStuffForSlot payload), w).
Proof.
  intros [u Hu] [s Hs]. rewrite addSlot_run, Hu, Hs. reflexivity.
Qed.

(** C1: [addSlot] on a payload whose stuffId matches no stored Stuff should
    answer the missing-stuff error and insert nothing.  With one stored user
    and nothing else in the memory, the call instead answers a slot, and
    the memory holds that slot afterwards, beside the user. *)
Theorem addSlot_unknown_stuff_is_stored :
  let payload := SlotPayload.mk "a week" "no-such-stuff" bobId 100 200 true in
  fst (checkUser bobId env_c oneUser) = true /\
  fst (checkStuffId "no-such-stuff" env_c oneUser) = false /\
  memory0 oneUser = {[ bobId := bobRecord ]} /\
  fst (addSlot payload env_c oneUser) = inl (Slot.obj (newSlot payload env_c)) /\
  memory0 (snd (addSlot payload env_c oneUser))
    = <[v4 (rng env_c) := Slot.obj (newSlot payload env_c)]> {[ bobId := bobRecord ]} /\
  fst (getSlot (v4 (rng env_c)) env_c (snd (addSlot payload env_c oneUser)))
    = Some (Slot.obj (newSlot payload env_c)).
Proof.
  cbn zeta.
  assert (Hu : is_Some (memory0 oneUser !! bobId)) by (vm_compute; eauto).
  assert (Hs : memory0 oneUser !! "no-such-stuff" = None) by reflexivity.
  split; [reflexivity|]. split; [reflexivity|]. split; [reflexivity|].
  rewrite addSlot_unknown_stuff; [|exact Hu|exact Hs].
  split; [reflexivity|]. split; [reflexivity|].
  rewrite getSlot_run. apply lookup_insert_eq.
Qed.

(** C2: [addSlot] on a payload whose ownerId matches no stored User should
    answer the missing-owner error and insert nothing.  In the memory made
    by one [addUser] and one [createStuff], the id of the stuff is the id
    of no user; yet with that id as ownerId [checkUser] answers true, since
    the users' map is the map the stuff was written to, and [addSlot]
    answers a slot and stores it: the memory has three records afterwards. *)
Theorem addSlot_owner_is_a_stuff :
  let payload := SlotPayload.mk "a week" "no-such-stuff" drillId 100 200 true in
  memory0 userAndStuff = <[drillId := drillRecord]> {[ bobId := bobRecord ]} /\
  drillRecord = fst (createStuff drill env_b oneUser) /\
  fst (checkUser drillId env_c userAndStuff) = true /\
  fst (addSlot payload env_c userAndStuff) = inl (Slot.obj (newSlot payload env_c)) /\
  memory0 (snd (addSlot payload env_c userAndStuff))
    = <[v4 (rng env_c) := Slot.obj (newSlot payload env_c)]> (memory0 userAndStuff) /\
  size (memory0 userAndStuff) = 2%nat /\
  size (memory0 (snd (addSlot payload env_c userAndStuff))) = 3%nat.
Proof.
  cbn zeta.
  assert (Hu : is_Some (memory0 userAndStuff !! drillId)) by (vm_compute; eauto).
  assert (Hs : memory0 userAndStuff !! "no-such-stuff" = None) by reflexivity.
  split; [reflexivity|]. split; [reflexivity|]. split; [reflexivity|].
  rewrite addSlot_unknown_stuff; [|exact Hu|exact Hs].
  split; [reflexivity|]. split; [reflexivity|]. split; reflexivity.
Qed.

(** ** Slots: update *)

(** C3: [updateSlot] should answer the not-found error when the slot id is
    not stored.  In the memory made by one [addUser] and one
    [createStuff] no slot was ever stored; yet [updateSlot] on the id of
    the user finds a record, the user's, passes both checks, answers the
    user's record overwritten with the payload and stores it in the
    user's place. *)
Theorem updateSlot_on_a_user_id :
  let payload := SlotPayload.mk "a week" drillId bobId 100 200 true in
  memory0 userAndStuff = <[drillId := drillRecord]> {[ bobId := bobRecord ]} /\
  bobRecord = fst (addUser sampleDate bob env_a initial) /\
  updateSlot bobId payload env_c userAndStuff
    = (inl (mergeSlot bobRecord payload env_c),
       mkWorld (<[bobId := mergeSlot bobRecord payload env_c]>
                  (memory0 userAndStuff))) /\
  JsObject.props (mergeSlot bobRecord payload env_c) !! "pseudo" = Some (VStr "bob") /\
  JsObject.props (mergeSlot bobRecord payload env_c) !! "stuffId" = Some (VStr drillId) /\
  JsObject.props (mergeSlot bobRecord payload env_c) !! "updatedAt"
    = Some (VNat64 (ic_time env_c)) /\
  fst (getUser bobId env_c (snd (updateSlot bobId payload env_c userAndStuff)))
    = Some (mergeSlot bobRecord payload env_c).
Proof.
  cbn zeta. split; [reflexivity|]. split; [reflexivity|].
  rewrite updateSlot_run.
  split; [reflexivity|]. split; [reflexivity|]. split; [reflexivity|].
  split; [reflexivity|].
  rewrite getUser_run. cbn. reflexivity.
Qed.

(** ** Stuffs: transfer of ownership *)

(** C4: [transferStuffOwnability] should succeed only if the id is that of
    a stored stuff and the new owner is a stored user.  In the memory made
    by one [addUser] and one [createStuff], a transfer of the stuff to the
    stuff's own id, which is the id of no user, succeeds and stores that
    owner; and in the memory with the user alone, where no stuff exists, a
    transfer of the user's id succeeds and stores the user's record with
    an ownerId. *)
Theorem transfer_between_modules :
  memory0 userAndStuff = <[drillId := drillRecord]> {[ bobId := bobRecord ]} /\
  bobRecord = fst (addUser sampleDate bob env_a initial) /\
  drillRecord = fst (createStuff drill env_b oneUser) /\
  transferStuffOwnability drillId drillId env_c userAndStuff
    = (inl (reownStuff drillRecord drillId env_c),
       mkWorld (<[drillId := reownStuff drillRecord drillId env_c]>
                  (memory0 userAndStuff))) /\
  JsObject.props (reownStuff drillRecord drillId env_c) !! "ownerId"
    = Some (VStr drillId) /\
  memory0 oneUser = {[ bobId := bobRecord ]} /\
  transferStuffOwnability bobId bobId env_c oneUser
    = (inl (reownStuff bobRecord bobId env_c),
       mkWorld {[ bobId := reownStuff bobRecord bobId env_c ]}) /\
  JsObject.props (reownStuff bobRecord bobId env_c) !! "pseudo"
    = Some (VStr "bob").
Proof.
  split; [reflexivity|]. split; [reflexivity|]. split; [reflexivity|].
  rewrite !transferStuffOwnability_run.
  repeat split; reflexivity.
Qed.

(** ** Creation followed by lookup *)

(** [addUser] followed by [getUser] on the id of the answered user. *)
Lemma addUser_then_getUser (toDate : nat64 -> Date) (user : UserPayload.t)
    (env env' : Env) (w : World) :
  let '(created, w') := addUser toDate user env w in
  fst (getUser (JsObject.id created) env' w') = Some created /\
  JsObject.props created !! "pseudo" = Some (VStr (UserPayload.pseudo user)) /\
  JsObject.props created !! "name" = Some (VStr (UserPayload.name user)) /\
  JsObject.id created <> "" /\
  JsObject.props created !! "createdAt" = Some (VDate (toDate (ic_time env))) /\
  JsObject.props created !! "updatedAt" = JsObject.props created !! "createdAt".
Proof.
  rewrite addUser_run, getUser_run. cbn.
  split; [apply lookup_insert_eq|].
  split; [reflexivity|]. split; [reflexivity|].
  split; [apply v4_nonempty|]. split; reflexivity.
Qed.

(** [createStuff] followed by [getStuff] on the id of the answered stuff. *)
Lemma createStuff_then_getStuff (stuff : StuffPayload.t) (env env' : Env)
    (w : World) :
  let '(created, w') := createStuff stuff env w in
  fst (getStuff (JsObject.id created) env' w') = Some created /\
  JsObject.props created !! "description"
    = Some (VStr (StuffPayload.description stuff)) /\
  JsObject.props created !! "image_url"
    = Some (VStr (StuffPayload.image_url stuff)) /\
  JsObject.props created !! "ownerId"
    = Some (VStr (StuffPayload.ownerId stuff)) /\
  JsObject.id created <> "" /\
  JsObject.props created !! "createdAt" = Some (VNat64 (ic_time env)) /\
  JsObject.props created !! "updatedAt" = JsObject.props created !! "createdAt".
Proof.
  rewrite createStuff_run, getStuff_run. cbn.
  split; [apply lookup_insert_eq|].
  split; [reflexivity|]. split; [reflexivity|]. split; [reflexivity|].
  split; [apply v4_nonempty|]. split; reflexivity.
Qed.

(** Whenever [addSlot] answers a slot, [getSlot] on its id finds it. *)
Lemma addSlot_then_getSlot (payload : SlotPayload.t) (env env' : Env)
    (w : World) (created : JsObject.t) :
  fst (addSlot payload env w) = inl created ->
  fst (getSlot (JsObject.id created) env' (snd (addSlot payload env w)))
    = Some created /\
  created = Slot.obj (newSlot payload env) /\
  JsObject.id created <> "" /\
  JsObject.props created !! "updatedAt" = JsObject.props created !! "createdAt".
Proof.
  rewrite addSlot_run, getSlot_run.
  destruct (memory0 w !! SlotPayload.ownerId payload);
    [destruct (memory0 w !! SlotPayload.stuffId payload)|]; cbn;
    intros E; try discriminate E.
  injection E as <-. cbn.
  split; [apply lookup_insert_eq|].
  split; [reflexivity|]. split; [apply v4_nonempty|reflexivity].
Qed.

(** C5: creation followed by a lookup of the answered id should give back
    the payload, for users, stuffs and slots with valid references.  It
    does for [addUser] and [createStuff] (the two lemmas above); for
    [addSlot] a payload whose owner and stuff are both stored is refused:
    the call answers the missing-stuff message, there is no id to look up
    and the memory still holds the user and the stuff and nothing else. *)
Theorem addSlot_valid_references_refused :
  let payload := SlotPayload.mk "a week" drillId bobId 100 200 true in
  is_Some (fst (getUser bobId env_c userAndStuff)) /\
  is_Some (fst (getStuff drillId env_c userAndStuff)) /\
  addSlot payload env_c userAndStuff
    = (inr "Can't create slot: no stuff matching id=11121314-1516-4718-991a-1b1c1d1e1f20",
       userAndStuff) /\
  memory0 (snd (addSlot payload env_c userAndStuff))
    = <[drillId := drillRecord]> {[ bobId := bobRecord ]}.
Proof.
  cbn zeta.
  assert (Hu : is_Some (memory0 userAndStuff !! bobId)) by (vm_compute; eauto).
  assert (Hs : is_Some (memory0 userAndStuff !! drillId)) by (vm_compute; eauto).
  split; [exact Hu|]. split; [exact Hs|].
  rewrite addSlot_known_references; [|exact Hu|exact Hs].
  split; reflexivity.
Qed.

(** ** Updates of stored records *)

(** C6: an update of a stored record should leave its updatedAt not before
    the previous one.  [updateUser] finds every record of the shared map:
    applied, in a later message, to the id of the stuff made by
    [createStuff], it keeps the stuff's id and createdAt, but replaces its
    updatedAt, the system time of the creation, by the date of the later
    message, a smaller number. *)
Theorem updateUser_on_a_stuff_lowers_updatedAt :
  let user := UserPayload.mk "bobby" "Robert" in
  let updated := mergeUser sampleDate drillRecord user env_c in
  memory0 userAndStuff !! drillId = Some drillRecord /\
  drillRecord = fst (createStuff drill env_b oneUser) /\
  ic_time env_b <= ic_time env_c /\
  updateUser sampleDate drillId user env_c userAndStuff
    = (Some updated, mkWorld (<[drillId := updated]> (memory0 userAndStuff))) /\
  JsObject.id updated = JsObject.id drillRecord /\
  JsObject.props updated !! "createdAt" = JsObject.props drillRecord !! "createdAt" /\
  JsObject.props drillRecord !! "updatedAt" = Some (VNat64 1700000500000) /\
  JsObject.props updated !! "updatedAt" = Some (VDate 17000009) /\
  (exists before after,
     (JsObject.props drillRecord !! "updatedAt") ≫= timeValue = Some before /\
     (JsObject.props updated !! "updatedAt") ≫= timeValue = Some after /\
     after < before).
Proof.
  cbn zeta. split; [reflexivity|]. split; [reflexivity|].
  split; [vm_compute; discriminate|].
  rewrite updateUser_run.
  split; [reflexivity|]. split; [reflexivity|]. split; [reflexivity|].
  split; [reflexivity|]. split; [reflexivity|].
  exists 1700000500000, 17000009. repeat split.
Qed.

(** ** Deletion *)

(** C7: after [removeUser], [deleteStuff] or [removeSlot] of an id, the
    lookup of that id finds nothing, and a second deletion of the same id
    answers nothing as well (an empty [Opt], not an error) and leaves the
    memory as the first deletion left it. *)
Theorem delete_then_lookup_is_empty (id : string) (env env' : Env) (w : World) :
  (fst (getUser id env' (snd (removeUser id env w))) = None /\
   removeUser id env' (snd (removeUser id env w))
     = (None, snd (removeUser id env w))) /\
  (fst (getStuff id env' (snd (deleteStuff id env w))) = None /\
   deleteStuff id env' (snd (deleteStuff id env w))
     = (None, snd (deleteStuff id env w))) /\
  (fst (getSlot id env' (snd (removeSlot id env w))) = None /\
   removeSlot id env' (snd (removeSlot id env w))
     = (None, snd (removeSlot id env w))).
Proof.
  rewrite ?removeUser_run, ?deleteStuff_run, ?removeSlot_run,
    ?getUser_run, ?getStuff_run, ?getSlot_run.
  cbn. rewrite !lookup_delete_eq, !delete_delete_eq. repeat split.
Qed.

(** ** Updates of an id that is not stored *)

(** [updateUser] on an id that is not stored answers an empty [Opt] and
    leaves the memory as it was. *)
Lemma updateUser_absent (toDate : nat64 -> Date) (id : string)
    (user : UserPayload.t) (env : Env) (w : World) :
  memory0 w !! id = None ->
  updateUser toDate id user env w = (None, w).
Proof.
  intros Hu. rewrite updateUser_run, Hu. reflexivity.
Qed.

(** C8: [updateUser] on an id that is not stored should never insert a
    record.  The variant that answers a [Result] builds its error and goes
    on: on an empty store it answers [Ok] and afterwards the store holds a
    record, without createdAt, under the id that was asked for. *)
Theorem updateUser_result_absent_inserts :
  let user := UserPayload.mk "ghost" "Nobody" in
  let made :=
    {| UserResult.User.id := "no-such-user";
       UserResult.User.pseudo := "ghost";
       UserResult.User.name := "Nobody";
       UserResult.User.createdAt := None;
       UserResult.User.updatedAt := sampleDate (ic_time env_a) |} in
  fst (UserResult.checkUser "no-such-user" env_a ∅) = false /\
  UserResult.updateUser sampleDate "no-such-user" user env_a ∅
    = (Ok made, {[ "no-such-user" := made ]}).
Proof.
  cbn zeta. split; reflexivity.
Qed.


(** ** Stuffs: creation *)

(** C9: [createStuff] succeeds on every payload, whether or not the
    payload's ownerId is a stored user, in every memory the canister can
    reach while the identifier generator keeps its promise of never giving
    an identifier twice: the stuff it answers has the generated
    identifier, which is not empty and is the key of no record stored
    before, the payload's fields and the message time as both timestamps;
    afterwards the lookup of that id finds it, every record stored before
    is still stored, and there is exactly one record more. *)
Theorem createStuff_unchecked_owner (toDate : nat64 -> Date)
    (ids : list string) (t : nat64) (w : World) (stuff : StuffPayload.t)
    (env env' : Env) :
  served toDate ids t w ->
  v4 (rng env) ∉ ids ->
  let created := fst (createStuff stuff env w) in
  let w' := snd (createStuff stuff env w) in
  JsObject.id created = v4 (rng env) /\
  JsObject.id created <> "" /\
  memory0 w !! JsObject.id created = None /\
  JsObject.props created !! "description"
    = Some (VStr (StuffPayload.description stuff)) /\
  JsObject.props created !! "image_url"
    = Some (VStr (StuffPayload.image_url stuff)) /\
  JsObject.props created !! "ownerId"
    = Some (VStr (StuffPayload.ownerId stuff)) /\
  JsObject.props created !! "createdAt" = Some (VNat64 (ic_time env)) /\
  JsObject.props created !! "updatedAt" = Some (VNat64 (ic_time env)) /\
  fst (getStuff (JsObject.id created) env' w') = Some created /\
  (forall k o, memory0 w !! k = Some o -> memory0 w' !! k = Some o) /\
  size (memory0 w') = S (size (memory0 w)).
Proof.
  intros Hs Hnew. cbn zeta.
  assert (Hfresh : memory0 w !! v4 (rng env) = None).
  { destruct (memory0 w !! v4 (rng env)) eqn:E; [|reflexivity].
    exfalso. apply Hnew. apply (served_keys toDate ids t w); [exact Hs|eauto]. }
  rewrite createStuff_run, getStuff_run. cbn.
  split; [reflexivity|]. split; [apply v4_nonempty|]. split; [exact Hfresh|].
  do 5 (split; [reflexivity|]).
  split; [apply lookup_insert_eq|]. split.
  - intros k o Hk. rewrite lookup_insert_ne; [exact Hk|]. congruence.
  - apply map_size_insert_None. exact Hfresh.
Qed.

Lemma createStuff_unchecked_owner_witness :
  let stuff := StuffPayload.mk "a ladder" "https://example.org/ladder.png" "nobody" in
  let created := fst (createStuff stuff env_c userAndStuff) in
  let w' := snd (createStuff stuff env_c userAndStuff) in
  memory0 userAndStuff !! "nobody" = None /\
  memory0 userAndStuff !! JsObject.id created = None /\
  JsObject.props created !! "ownerId" = Some (VStr "nobody") /\
  fst (getStuff (JsObject.id created) env_c w') = Some created /\
  size (memory0 w') = 3%nat.
Proof.
  cbn zeta. split; [reflexivity|].
  assert (Hnew : v4 (rng env_c) ∉ [drillId; bobId]).
  { intros H. apply elem_of_cons in H as [H|H]; [discriminate H|].
    apply elem_of_cons in H as [H|H]; [discriminate H|].
    apply not_elem_of_nil in H. exact H. }
  pose proof (createStuff_unchecked_owner sampleDate [drillId; bobId]
                (ic_time env_b) userAndStuff
                (StuffPayload.mk "a ladder" "https://example.org/ladder.png" "nobody")
                env_c env_c userAndStuff_served Hnew) as H.
  cbn zeta in H.
  destruct H as (_ & _ & Hf & _ & _ & Ho & _ & _ & Hg & _ & Hsz).
  split; [exact Hf|]. split; [exact Ho|]. split; [exact Hg|]. exact Hsz.
Defined.

(** ** Deletions across the modules *)

(** C10: [removeUser] should change only the users and leave every stored
    stuff as it is.  In the memory made by one [addUser] and one
    [createStuff], [getStuff] finds the stuff under its id; [removeUser]
    of that id answers the stuff and deletes it: afterwards [getStuff]
    finds nothing and the memory holds the user alone. *)
Theorem removeUser_deletes_a_stuff :
  memory0 userAndStuff = <[drillId := drillRecord]> {[ bobId := bobRecord ]} /\
  drillRecord = fst (createStuff drill env_b oneUser) /\
  fst (getStuff drillId env_c userAndStuff) = Some drillRecord /\
  removeUser drillId env_c userAndStuff
    = (Some drillRecord, mkWorld {[ bobId := bobRecord ]}) /\
  fst (getStuff drillId env_c (snd (removeUser drillId env_c userAndStuff))) = None /\
  fst (getStuffs env_c (snd (removeUser drillId env_c userAndStuff))) = [bobRecord].
Proof.
  repeat split; reflexivity.
Qed.

(** * Further properties of the three modules *)

(** ** Queries *)

Lemma checkPseudo_true (pseudo : string) (env : Env) (w : World) :
  fst (checkPseudo pseudo env w) = true <->
  exists k u, memory0 w !! k = Some u /\
              JsObject.props u !! "pseudo" = Some (VStr pseudo).
Proof.
  unfold checkPseudo, bind, ret.
  destruct (StableBTreeMap.values usersStorage env w) as [all w'] eqn:E.
  cbn [fst]. rewrite existsb_exists.
  assert (Hall : forall u, In u all <-> exists k, memory0 w !! k = Some u).
  { intros u. rewrite <- list_elem_of_In.
    rewrite <- (values_run usersStorage env w u), E. reflexivity. }
  split.
  - intros (u & Hin & Hb). apply bool_decide_eq_true in Hb.
    apply Hall in Hin. destruct Hin as [k Hk]. exists k, u. split; assumption.
  - intros (k & u & Hk & Hp). exists u. split.
    + apply Hall. exists k. exact Hk.
    + apply bool_decide_eq_true. exact Hp.
Qed.

(** X1: [checkPseudo] answers true exactly when some stored record has the
    pseudo asked for, false otherwise, and it leaves the memory as it
    was. *)
Theorem checkPseudo_finds_pseudo (pseudo : string) (env : Env) (w : World) :
  (fst (checkPseudo pseudo env w) = true <->
   exists k u, memory0 w !! k = Some u /\
               JsObject.props u !! "pseudo" = Some (VStr pseudo)) /\
  (fst (checkPseudo pseudo env w) = false <->
   forall k u, memory0 w !! k = Some u ->
               JsObject.props u !! "pseudo" <> Some (VStr pseudo)) /\
  snd (checkPseudo pseudo env w) = w.
Proof.
  split; [apply checkPseudo_true|]. split; [|reflexivity].
  rewrite <- not_true_iff_false, checkPseudo_true. split.
  - intros Hno k u Hk Hp. apply Hno. exists k, u. split; assumption.
  - intros Hall (k & u & Hk & Hp). exact (Hall k u Hk Hp).
Qed.

(** X2: [addUser] does not look at the pseudos already stored.  After it,
    [checkPseudo] of the payload's pseudo is true; and when a stored record
    already has that pseudo and the generated id is not yet a key, both
    records are stored afterwards, under different ids, with the same
    pseudo. *)
Theorem addUser_accepts_taken_pseudo (toDate : nat64 -> Date)
    (user : UserPayload.t) (env env' : Env) (w : World) :
  let created := fst (addUser toDate user env w) in
  let w' := snd (addUser toDate user env w) in
  fst (checkPseudo (UserPayload.pseudo user) env' w') = true /\
  (forall k u,
     memory0 w !! k = Some u ->
     JsObject.props u !! "pseudo" = Some (VStr (UserPayload.pseudo user)) ->
     memory0 w !! JsObject.id created = None ->
     k <> JsObject.id created /\
     memory0 w' !! k = Some u /\
     memory0 w' !! JsObject.id created = Some created /\
     JsObject.props created !! "pseudo" = JsObject.props u !! "pseudo" /\
     size (memory0 w') = S (size (memory0 w))).
Proof.
  cbn zeta. rewrite addUser_run. cbn [fst snd]. split.
  - apply checkPseudo_true.
    exists (v4 (rng env)), (User.obj (newUser toDate user env)).
    split; [apply lookup_insert_eq|reflexivity].
  - cbn. intros k u Hk Hp Hfresh.
    assert (Hne : k <> v4 (rng env)) by congruence.
    split; [exact Hne|]. split; [|split; [|split]].
    + rewrite lookup_insert_ne; auto.
    + apply lookup_insert_eq.
    + rewrite Hp. reflexivity.
    + apply map_size_insert_None. exact Hfresh.
Qed.

Lemma addUser_accepts_taken_pseudo_witness :
  let created := fst (addUser sampleDate bob env_b oneUser) in
  let w' := snd (addUser sampleDate bob env_b oneUser) in
  bobId <> JsObject.id created /\
  memory0 w' !! bobId = Some bobRecord /\
  memory0 w' !! JsObject.id created = Some created /\
  JsObject.props created !! "pseudo" = JsObject.props bobRecord !! "pseudo" /\
  size (memory0 w') = 2%nat.
Proof.
  apply (proj2 (addUser_accepts_taken_pseudo sampleDate bob env_b env_c oneUser)
           bobId bobRecord);
    reflexivity.
Defined.

(** X4: in every memory the canister can reach, the listings and the
    lookups agree: a record is in [getUsers], [getStuffs] or [getSlots]
    exactly when the lookup of its own id finds it. *)
Theorem listings_agree_with_lookups (toDate : nat64 -> Date) (t : nat64)
    (w : World) (env env' : Env) :
  reachable toDate t w ->
  (forall u, u ∈ fst (getUsers env w) <->
             fst (getUser (JsObject.id u) env' w) = Some u) /\
  (forall s, s ∈ fst (getStuffs env w) <->
             fst (getStuff (JsObject.id s) env' w) = Some s) /\
  (forall s, s ∈ fst (getSlots env w) <->
             fst (getSlot (JsObject.id s) env' w) = Some s).
Proof.
  intros Hr. pose proof (reachable_keyed toDate t w Hr) as Hk.
  unfold getUsers, getStuffs, getSlots.
  rewrite ?getUser_run, ?getStuff_run, ?getSlot_run.
  split; [|split]; intros x; rewrite values_run; cbn; split;
    try (intros [k Hx]; rewrite (Hk k x Hx); exact Hx); eauto.
Qed.

Lemma listings_agree_with_lookups_witness :
  drillRecord ∈ fst (getStuffs env_c userAndStuff) <->
  fst (getStuff (JsObject.id drillRecord) env_c userAndStuff) = Some drillRecord.
Proof.
  exact (proj1 (proj2 (listings_agree_with_lookups sampleDate (ic_time env_b)
                         userAndStuff env_c env_c userAndStuff_reachable))
           drillRecord).
Defined.

(** ** Creation and deletion against the listings *)

Lemma values_insert_fresh {S V} (m : StableBTreeMap.t S V) env s s' k (x : V) :
  StableBTreeMap.load m s !! k = None ->
  StableBTreeMap.load m s' = <[k := x]> (StableBTreeMap.load m s) ->
  fst (StableBTreeMap.values m env s') ≡ₚ x :: fst (StableBTreeMap.values m env s).
Proof.
  intros Hk Hs'. unfold StableBTreeMap.values. cbn.
  rewrite !merge_sort_Permutation, Hs', (map_to_list_insert _ k x Hk).
  reflexivity.
Qed.

Lemma values_delete_stored {S V} (m : StableBTreeMap.t S V) env s s' k (x : V) :
  StableBTreeMap.load m s !! k = Some x ->
  StableBTreeMap.load m s' = delete k (StableBTreeMap.load m s) ->
  fst (StableBTreeMap.values m env s) ≡ₚ x :: fst (StableBTreeMap.values m env s').
Proof.
  intros Hk Hs'. unfold StableBTreeMap.values. cbn.
  rewrite !merge_sort_Permutation, Hs', <- (map_to_list_delete _ k x Hk).
  reflexivity.
Qed.

(** X5: when the generated id is not yet a key, the listing after
    [addUser] or [createStuff], and after an [addSlot] that answers a slot,
    is the listing before with the answered record added, up to order. *)
Theorem creation_extends_listing (toDate : nat64 -> Date)
    (env env' : Env) (w : World) :
  (forall user,
     memory0 w !! v4 (rng env) = None ->
     fst (getUsers env' (snd (addUser toDate user env w)))
       ≡ₚ fst (addUser toDate user env w) :: fst (getUsers env' w)) /\
  (forall stuff,
     memory0 w !! v4 (rng env) = None ->
     fst (getStuffs env' (snd (createStuff stuff env w)))
       ≡ₚ fst (createStuff stuff env w) :: fst (getStuffs env' w)) /\
  (forall payload created,
     memory0 w !! v4 (rng env) = None ->
     fst (addSlot payload env w) = inl created ->
     fst (getSlots env' (snd (addSlot payload env w)))
       ≡ₚ created :: fst (getSlots env' w)).
Proof.
  split; [|split].
  - intros user Hfresh. rewrite addUser_run. cbn [fst snd].
    apply (values_insert_fresh usersStorage env' w _ (v4 (rng env)));
      [exact Hfresh|reflexivity].
  - intros stuff Hfresh. rewrite createStuff_run. cbn [fst snd].
    apply (values_insert_fresh stuffsStorage env' w _ (v4 (rng env)));
      [exact Hfresh|reflexivity].
  - intros payload created Hfresh. rewrite addSlot_run.
    destruct (memory0 w !! SlotPayload.ownerId payload);
      [destruct (memory0 w !! SlotPayload.stuffId payload)|];
      cbn [fst snd]; intros E; try discriminate E.
    injection E as <-.
    apply (values_insert_fresh slotsStorage env' w _ (v4 (rng env)));
      [exact Hfresh|reflexivity].
Qed.

Lemma creation_extends_listing_witness :
  fst (getStuffs env_c (snd (createStuff drill env_c userAndStuff)))
    ≡ₚ fst (createStuff drill env_c userAndStuff)
       :: fst (getStuffs env_c userAndStuff).
Proof.
  assert (Hfresh : memory0 userAndStuff !! v4 (rng env_c) = None) by reflexivity.
  exact (proj1 (proj2 (creation_extends_listing sampleDate env_c env_c
                         userAndStuff)) drill Hfresh).
Defined.

(** X6: a deletion answers what the lookup of the id would have found.  If
    the id is stored the record leaves the listing, which is otherwise as
    before, up to order; if it is not stored the memory is left as it
    was. *)
Theorem deletion_answers_stored_record (id : string) (env env' : Env)
    (w : World) :
  (fst (removeUser id env w) = fst (getUser id env w) /\
   (forall u, memory0 w !! id = Some u ->
      fst (getUsers env' w)
        ≡ₚ u :: fst (getUsers env' (snd (removeUser id env w)))) /\
   (memory0 w !! id = None -> snd (removeUser id env w) = w)) /\
  (fst (deleteStuff id env w) = fst (getStuff id env w) /\
   (forall s, memory0 w !! id = Some s ->
      fst (getStuffs env' w)
        ≡ₚ s :: fst (getStuffs env' (snd (deleteStuff id env w)))) /\
   (memory0 w !! id = None -> snd (deleteStuff id env w) = w)) /\
  (fst (removeSlot id env w) = fst (getSlot id env w) /\
   (forall s, memory0 w !! id = Some s ->
      fst (getSlots env' w)
        ≡ₚ s :: fst (getSlots env' (snd (removeSlot id env w)))) /\
   (memory0 w !! id = None -> snd (removeSlot id env w) = w)).
Proof.
  assert (Hlist : forall x, memory0 w !! id = Some x ->
            fst (StableBTreeMap.values onMemory0 env' w)
              ≡ₚ x :: fst (StableBTreeMap.values onMemory0 env'
                             (mkWorld (delete id (memory0 w))))).
  { intros x Hx. apply (values_delete_stored onMemory0 env' w _ id);
      [exact Hx|reflexivity]. }
  assert (Hsame : memory0 w !! id = None -> mkWorld (delete id (memory0 w)) = w).
  { intros Hx. rewrite (delete_id _ _ Hx). apply world_eta. }
  repeat split; try exact Hlist; exact Hsame.
Qed.

Lemma deletion_answers_stored_record_witness :
  fst (getStuffs env_c userAndStuff)
    ≡ₚ drillRecord
       :: fst (getStuffs env_c (snd (deleteStuff drillId env_c userAndStuff))).
Proof.
  assert (Hs : memory0 userAndStuff !! drillId = Some drillRecord) by reflexivity.
  exact (proj1 (proj2 (proj1 (proj2 (deletion_answers_stored_record drillId
                                       env_c env_c userAndStuff))))
           drillRecord Hs).
Defined.

(** X7: creation followed by deletion of the answered id gives the record
    back and, when the generated id was not yet a key, restores the memory
    that was there before the creation. *)
Theorem creation_then_deletion_restores (toDate : nat64 -> Date)
    (env env' : Env) (w : World) :
  (forall user,
     let created := fst (addUser toDate user env w) in
     let w' := snd (addUser toDate user env w) in
     fst (removeUser (JsObject.id created) env' w') = Some created /\
     (memory0 w !! JsObject.id created = None ->
      snd (removeUser (JsObject.id created) env' w') = w)) /\
  (forall stuff,
     let created := fst (createStuff stuff env w) in
     let w' := snd (createStuff stuff env w) in
     fst (deleteStuff (JsObject.id created) env' w') = Some created /\
     (memory0 w !! JsObject.id created = None ->
      snd (deleteStuff (JsObject.id created) env' w') = w)) /\
  (forall payload created,
     fst (addSlot payload env w) = inl created ->
     let w' := snd (addSlot payload env w) in
     fst (removeSlot (JsObject.id created) env' w') = Some created /\
     (memory0 w !! JsObject.id created = None ->
      snd (removeSlot (JsObject.id created) env' w') = w)).
Proof.
  split; [|split].
  - intros user. cbn zeta. rewrite addUser_run, removeUser_run. cbn.
    split; [apply lookup_insert_eq|].
    intros Hfresh. rewrite delete_insert_id by exact Hfresh. apply world_eta.
  - intros stuff. cbn zeta. rewrite createStuff_run, deleteStuff_run. cbn.
    split; [apply lookup_insert_eq|].
    intros Hfresh. rewrite delete_insert_id by exact Hfresh. apply world_eta.
  - intros payload created. rewrite addSlot_run.
    destruct (memory0 w !! SlotPayload.ownerId payload);
      [destruct (memory0 w !! SlotPayload.stuffId payload)|];
      cbn; intros E; try discriminate E.
    injection E as <-. cbn.
    split; [apply lookup_insert_eq|].
    intros Hfresh. rewrite delete_insert_id by exact Hfresh. apply world_eta.
Qed.

Lemma creation_then_deletion_restores_witness :
  snd (deleteStuff (JsObject.id (fst (createStuff drill env_c userAndStuff))) env_c
         (snd (createStuff drill env_c userAndStuff))) = userAndStuff.
Proof.
  assert (Hfresh : memory0 userAndStuff
                     !! JsObject.id (fst (createStuff drill env_c userAndStuff))
                   = None) by reflexivity.
  exact (proj2 (proj1 (proj2 (creation_then_deletion_restores sampleDate
                                env_c env_c userAndStuff)) drill) Hfresh).
Defined.

(** ** Failures of the stuff module *)

(** X8: [updateStuff] fails exactly when no record of the map has the id;
    [transferStuffOwnability] fails exactly when no record has the id or no
    record has the id of the new owner, and in both cases with the same
    message, the one of a stuff not found.  A failure of either leaves the
    memory as it was.  The record found need not be a stuff, nor the owner
    a user: any record of the shared map counts. *)
Theorem stuff_failures (id toOwnerId : string) (payload : StuffPayload.t)
    (env : Env) (w : World) :
  (memory0 w !! id = None <->
   updateStuff id payload env w = (inr (stuffNotFound id), w)) /\
  (is_Some (memory0 w !! id) <->
   exists updated, fst (updateStuff id payload env w) = inl updated) /\
  (memory0 w !! id = None \/ memory0 w !! toOwnerId = None <->
   transferStuffOwnability id toOwnerId env w = (inr (stuffNotFound id), w)) /\
  (is_Some (memory0 w !! id) /\ is_Some (memory0 w !! toOwnerId) <->
   exists updated, fst (transferStuffOwnability id toOwnerId env w) = inl updated).
Proof.
  rewrite updateStuff_run, transferStuffOwnability_run.
  destruct (memory0 w !! id) as [stored|];
    [destruct (memory0 w !! toOwnerId) as [u|]|]; cbn.
  all: repeat split; intros;
    repeat match goal with
           | H : exists _, _ |- _ => destruct H
           | H : _ /\ _ |- _ => destruct H
           | H : _ \/ _ |- _ => destruct H
           end;
    settle_lookups.
Qed.

(** ** One map behind the three modules *)

(** X9: a record written by one module is found by the others.  After
    [createStuff], [getUser] and [getSlot] of the new id answer the stuff,
    [checkUser] and [checkSlotId] answer true, and the stuff is in
    [getUsers] and [getSlots]; after [addUser], the user is found by
    [getStuff], [getSlot], [checkStuffId], [checkSlotId] and listed by
    [getStuffs] and [getSlots]. *)
Theorem records_cross_modules (toDate : nat64 -> Date)
    (user : UserPayload.t) (stuff : StuffPayload.t) (env env' : Env) (w : World) :
  (let created := fst (createStuff stuff env w) in
   let w' := snd (createStuff stuff env w) in
   fst (getUser (JsObject.id created) env' w') = Some created /\
   fst (getSlot (JsObject.id created) env' w') = Some created /\
   fst (checkUser (JsObject.id created) env' w') = true /\
   fst (checkSlotId (JsObject.id created) env' w') = true /\
   created ∈ fst (getUsers env' w') /\
   created ∈ fst (getSlots env' w')) /\
  (let created := fst (addUser toDate user env w) in
   let w' := snd (addUser toDate user env w) in
   fst (getStuff (JsObject.id created) env' w') = Some created /\
   fst (getSlot (JsObject.id created) env' w') = Some created /\
   fst (checkStuffId (JsObject.id created) env' w') = true /\
   fst (checkSlotId (JsObject.id created) env' w') = true /\
   created ∈ fst (getStuffs env' w') /\
   created ∈ fst (getSlots env' w')).
Proof.
  cbn zeta. rewrite createStuff_run, addUser_run. cbn [fst snd].
  unfold checkSlotId, getUsers, getStuffs, getSlots.
  rewrite ?checkUser_run, ?checkStuffId_run, ?containsKey_run,
    ?getUser_run, ?getStuff_run, ?getSlot_run.
  cbn [fst snd memory0 JsObject.id Stuff.obj User.obj newStuff newUser
       Stuff.id User.id StableBTreeMap.load slotsStorage onMemory0].
  rewrite !lookup_insert_eq.
  repeat split; apply values_run; eexists; apply lookup_insert_eq.
Qed.

(** ** What an update leaves alone *)

(** X10: in every memory the canister can reach, an update or a transfer
    writes at most the record of the id it is given: every other id keeps
    its record, and the set of stored ids is the same afterwards, so an
    update never creates and never deletes a record. *)
Theorem updates_touch_one_record (toDate : nat64 -> Date) (t : nat64)
    (w : World) (id toOwnerId : string) (user : UserPayload.t)
    (stuff : StuffPayload.t) (slot : SlotPayload.t) (env : Env) :
  reachable toDate t w ->
  ((forall k, k <> id ->
      memory0 (snd (updateUser toDate id user env w)) !! k = memory0 w !! k) /\
   dom (memory0 (snd (updateUser toDate id user env w))) = dom (memory0 w)) /\
  ((forall k, k <> id ->
      memory0 (snd (updateStuff id stuff env w)) !! k = memory0 w !! k) /\
   dom (memory0 (snd (updateStuff id stuff env w))) = dom (memory0 w)) /\
  ((forall k, k <> id ->
      memory0 (snd (transferStuffOwnability id toOwnerId env w)) !! k
        = memory0 w !! k) /\
   dom (memory0 (snd (transferStuffOwnability id toOwnerId env w)))
     = dom (memory0 w)) /\
  ((forall k, k <> id ->
      memory0 (snd (updateSlot id slot env w)) !! k = memory0 w !! k) /\
   dom (memory0 (snd (updateSlot id slot env w))) = dom (memory0 w)).
Proof.
  intros Hr. pose proof (reachable_keyed toDate t w Hr) as Hk.
  rewrite updateUser_run, updateStuff_run, transferStuffOwnability_run,
    updateSlot_run.
  destruct (memory0 w !! id) as [stored|] eqn:E; cbn; [|auto].
  rewrite (Hk id stored E).
  assert (Hone : forall o,
            (forall k, k <> id -> <[id := o]> (memory0 w) !! k = memory0 w !! k) /\
            dom (<[id := o]> (memory0 w)) = dom (memory0 w)).
  { intros o. split.
    - intros k Hne. apply lookup_insert_ne. congruence.
    - apply dom_insert_lookup_L. eauto. }
  split; [apply Hone|]. split; [apply Hone|].
  destruct (memory0 w !! toOwnerId); cbn;
    (split; [first [apply Hone|auto]|]).
  all: destruct (memory0 w !! SlotPayload.ownerId slot); cbn; [|auto].
  all: destruct (memory0 w !! SlotPayload.stuffId slot); cbn; [|auto].
  all: apply Hone.
Qed.

Lemma updates_touch_one_record_witness :
  dom (memory0 (snd (updateUser sampleDate bobId (UserPayload.mk "bobby" "Robert")
                       env_c userAndStuff)))
    = dom (memory0 userAndStuff).
Proof.
  exact (proj2 (proj1 (updates_touch_one_record sampleDate (ic_time env_b)
                         userAndStuff bobId "nobody"
                         (UserPayload.mk "bobby" "Robert") drill
                         (SlotPayload.mk "a week" drillId bobId 100 200 true)
                         env_c userAndStuff_reachable))).
Defined.

(** ** More invariants of the canister's histories *)

(** X11: in every memory the canister can reach, a lookup answers a record
    that carries the id that was looked up, through each of the three
    modules. *)
Theorem lookup_answers_record_of_that_id (toDate : nat64 -> Date) (t : nat64)
    (w : World) (env : Env) (id : string) :
  reachable toDate t w ->
  (forall u, fst (getUser id env w) = Some u -> JsObject.id u = id) /\
  (forall s, fst (getStuff id env w) = Some s -> JsObject.id s = id) /\
  (forall s, fst (getSlot id env w) = Some s -> JsObject.id s = id).
Proof.
  intros Hr. pose proof (reachable_keyed toDate t w Hr) as Hk.
  rewrite ?getUser_run, ?getStuff_run, ?getSlot_run. cbn.
  split; [|split]; intros x Hx; exact (Hk id x Hx).
Qed.

Lemma lookup_answers_record_of_that_id_witness :
  fst (getStuff drillId env_c userAndStuff) = Some drillRecord /\
  JsObject.id drillRecord = drillId.
Proof.
  split; [reflexivity|].
  apply (proj1 (proj2 (lookup_answers_record_of_that_id sampleDate
                         (ic_time env_b) userAndStuff env_c drillId
                         userAndStuff_reachable))).
  reflexivity.
Defined.

(** X13: in every memory the canister can reach, every stored id was made
    by [uuidv4]: it is the print of some sixteen bytes, thirty-six
    characters long, and so never the empty string. *)
Theorem stored_ids_are_generated (toDate : nat64 -> Date) (t : nat64)
    (w : World) (env : Env) (id : string) :
  reachable toDate t w ->
  is_Some (fst (getUser id env w)) \/ is_Some (fst (getStuff id env w))
    \/ is_Some (fst (getSlot id env w)) ->
  (exists r, id = v4 r) /\ String.length id = 36%nat /\ id <> "".
Proof.
  intros Hr Hid. pose proof (reachable_minted toDate t w Hr) as Hm.
  rewrite ?getUser_run, ?getStuff_run, ?getSlot_run in Hid. cbn in Hid.
  assert (Hv : exists r, id = v4 r).
  { destruct Hid as [[x Hx]|[[x Hx]|[x Hx]]]; exact (Hm id x Hx). }
  split; [exact Hv|]. destruct Hv as [r ->].
  split; [apply v4_length|apply v4_nonempty].
Qed.

Lemma stored_ids_are_generated_witness :
  (exists r, drillId = v4 r) /\ String.length drillId = 36%nat /\ drillId <> "".
Proof.
  apply (stored_ids_are_generated sampleDate (ic_time env_b) userAndStuff
           env_c drillId userAndStuff_reachable).
  right. left. eexists. reflexivity.
Defined.

(** ** When [addSlot] stores a slot *)

(** X14: [addSlot] answers a slot exactly when the payload's ownerId is the
    id of a record of the map and the payload's stuffId is the id of none.
    The slot it answers is then stored under the generated id, and no
    other id changes.  With both ids stored it answers the message of a
    missing stuff; a message leaves the memory as it was. *)
Theorem addSlot_outcome (payload : SlotPayload.t) (env : Env) (w : World) :
  (is_Some (memory0 w !! SlotPayload.ownerId payload) /\
   memory0 w !! SlotPayload.stuffId payload = None <->
   exists created, fst (addSlot payload env w) = inl created) /\
  (forall created,
     fst (addSlot payload env w) = inl created ->
     created = Slot.obj (newSlot payload env) /\
     memory0 (snd (addSlot payload env w)) !! JsObject.id created = Some created /\
     forall k, k <> JsObject.id created ->
       memory0 (snd (addSlot payload env w)) !! k = memory0 w !! k) /\
  (is_Some (memory0 w !! SlotPayload.ownerId payload) ->
   is_Some (memory0 w !! SlotPayload.stuffId payload) ->
   fst (addSlot payload env w) = inr (noStuffForSlot payload)) /\
  (forall e, fst (addSlot payload env w) = inr e ->
     snd (addSlot payload env w) = w).
Proof.
  rewrite addSlot_run.
  destruct (memory0 w !! SlotPayload.ownerId payload) as [u|];
    [destruct (memory0 w !! SlotPayload.stuffId payload) as [s|]|]; cbn.
  all: split; [split|split; [|split]].
  all: intros;
    repeat match goal with
           | H : exists _, _ |- _ => destruct H
           | H : _ /\ _ |- _ => destruct H
           end;
    settle_lookups.
  match goal with H : inl _ = inl _ |- _ => injection H as <- end.
  split; [reflexivity|]. split; [apply lookup_insert_eq|].
  intros k Hne. apply lookup_insert_ne. cbn in Hne. congruence.
Qed.

Lemma addSlot_outcome_witness :
  let payload := SlotPayload.mk "a week" drillId bobId 100 200 true in
  fst (addSlot payload env_c userAndStuff) = inr (noStuffForSlot payload).
Proof.
  cbn zeta.
  apply (addSlot_outcome (SlotPayload.mk "a week" drillId bobId 100 200 true)
           env_c userAndStuff); eexists; reflexivity.
Defined.

(** ** The variant of user.ts that answers with [Result] *)

(** X15: the [updateUser] of this variant never answers [Err]: for every id
    it answers [Ok] with a record that it stores under that id, and no
    other id changes.  The record has the payload's pseudo and name and the
    date of the message as updatedAt; for a stored id it keeps the stored
    id and createdAt, for an id that is not stored it takes the id asked
    for, has no createdAt, and the store grows by one. *)
Theorem updateUser_result_upserts (toDate : nat64 -> Date) (id : string)
    (user : UserPayload.t) (env : Env) (s : gmap string UserResult.User.t) :
  exists u,
    UserResult.updateUser toDate id user env s = (Ok u, <[id := u]> s) /\
    UserResult.User.pseudo u = UserPayload.pseudo user /\
    UserResult.User.name u = UserPayload.name user /\
    UserResult.User.updatedAt u = toDate (ic_time env) /\
    (forall stored, s !! id = Some stored ->
       UserResult.User.id u = UserResult.User.id stored /\
       UserResult.User.createdAt u = UserResult.User.createdAt stored /\
       size (<[id := u]> s) = size s) /\
    (s !! id = None ->
       UserResult.User.id u = id /\
       UserResult.User.createdAt u = None /\
       size (<[id := u]> s) = S (size s)).
Proof.
  unfold UserResult.updateUser, UserResult.checkUser, bind, StableBTreeMap.get.
  rewrite containsKey_run. cbn.
  destruct (s !! id) as [stored|] eqn:E; cbn; eexists;
    (split; [reflexivity|]); cbn; repeat split; intros; settle_lookups.
  - apply map_size_insert_Some. eauto.
  - apply map_size_insert_None. assumption.
Qed.

(** X16: the [getUser] of this variant answers [Err] with the message of a
    missing user exactly when the id is not stored; for a stored id it
    answers the user wrapped in [Ok] twice.  It never changes the store. *)
Theorem getUser_result_outcome (id : string) (env : Env)
    (s : gmap string UserResult.User.t) :
  (s !! id = None <->
   fst (UserResult.getUser id env s) = Err ("no user found matching id=" +:+ id)) /\
  (forall u, s !! id = Some u <->
             fst (UserResult.getUser id env s) = Ok (Ok (Some u))) /\
  snd (UserResult.getUser id env s) = s.
Proof.
  unfold UserResult.getUser, UserResult.checkUser, bind, StableBTreeMap.get.
  rewrite containsKey_run. cbn.
  destruct (s !! id) as [stored|] eqn:E; cbn.
  - split; [split; discriminate|]. split; [|reflexivity].
    intros u. split; intros H; congruence.
  - split; [split; reflexivity|]. split; [|reflexivity].
    intros u. split; discriminate.
Qed.

(** X17: in this variant [addUser] followed by [getUser] on the id of the
    answered user answers that user; the user has the generated id, which
    is not empty, the payload's pseudo and name, and the date of the
    message both as createdAt and as updatedAt; [checkUser] of the id is
    true afterwards. *)
Theorem addUser_result_then_getUser (toDate : nat64 -> Date)
    (user : UserPayload.t) (env env' : Env) (s : gmap string UserResult.User.t) :
  let created := fst (UserResult.addUser toDate user env s) in
  let s' := snd (UserResult.addUser toDate user env s) in
  UserResult.getUser (UserResult.User.id created) env' s'
    = (Ok (Ok (Some created)), s') /\
  fst (UserResult.checkUser (UserResult.User.id created) env' s') = true /\
  UserResult.User.id created = v4 (rng env) /\
  UserResult.User.id created <> "" /\
  UserResult.User.pseudo created = UserPayload.pseudo user /\
  UserResult.User.name created = UserPayload.name user /\
  UserResult.User.createdAt created = Some (toDate (ic_time env)) /\
  UserResult.User.updatedAt created = toDate (ic_time env) /\
  s' = <[UserResult.User.id created := created]> s.
Proof.
  cbn zeta.
  unfold UserResult.getUser, UserResult.checkUser, bind, StableBTreeMap.get.
  rewrite !containsKey_run. cbn. rewrite !lookup_insert_eq. cbn.
  repeat split. apply v4_nonempty.
Qed.

(** ** Successive operations *)

Lemma lookup_insert_still {V} (m : gmap string V) (id : string) (o : V)
    (k : string) (x : V) :
  m !! k = Some x -> exists y, <[id := o]> m !! k = Some y.
Proof.
  intros Hk. destruct (decide (id = k)) as [->|Hne].
  - exists o. apply lookup_insert_eq.
  - exists x. rewrite lookup_insert_ne; assumption.
Qed.

Lemma respread (P1 P2 S : gmap string Value) (k : string) (a1 a2 : Value) :
  dom P1 = dom P2 ->
  <[k := a2]> (P2 ∪ <[k := a1]> (P1 ∪ S)) = <[k := a2]> (P2 ∪ S).
Proof.
  intros Hdom. apply map_eq. intros i.
  destruct (decide (i = k)) as [->|Hne]; [rewrite !lookup_insert_eq; reflexivity|].
  rewrite !lookup_insert_ne by congruence.
  rewrite !lookup_union.
  destruct (P2 !! i) as [x|] eqn:E2;
    [destruct (<[k := a1]> (P1 ∪ S) !! i), (S !! i); reflexivity|].
  assert (E1 : P1 !! i = None).
  { apply not_elem_of_dom. rewrite Hdom. apply not_elem_of_dom. exact E2. }
  rewrite lookup_insert_ne by congruence.
  rewrite lookup_union, E1. destruct (S !! i); reflexivity.
Qed.

Lemma mergeUser_twice toDate stored user1 user2 env1 env2 :
  mergeUser toDate (mergeUser toDate stored user1 env1) user2 env2
  = mergeUser toDate stored user2 env2.
Proof.
  unfold mergeUser. cbn. f_equal. apply respread.
  unfold UserPayload.props. rewrite !dom_insert_L. reflexivity.
Qed.

Lemma mergeStuff_twice stored stuff1 stuff2 env1 env2 :
  mergeStuff (mergeStuff stored stuff1 env1) stuff2 env2
  = mergeStuff stored stuff2 env2.
Proof.
  unfold mergeStuff. cbn. f_equal. apply respread.
  unfold StuffPayload.props. rewrite !dom_insert_L. reflexivity.
Qed.

Lemma mergeSlot_twice stored slot1 slot2 env1 env2 :
  mergeSlot (mergeSlot stored slot1 env1) slot2 env2
  = mergeSlot stored slot2 env2.
Proof.
  unfold mergeSlot. cbn. f_equal. apply respread.
  unfold SlotPayload.props. rewrite !dom_insert_L. reflexivity.
Qed.

(** X18: an update writes every field that a payload has, so updates do not
    accumulate: in every memory the canister can reach, the memory after
    two successive updates of one id through [updateUser], or through
    [updateStuff], even in different messages, is the memory after the
    second update alone; for [updateSlot] the same holds, answer included,
    whenever the second update alone answers a slot. *)
Theorem later_update_wins (toDate : nat64 -> Date) (t : nat64) (w : World)
    (id : string) (env1 env2 : Env) :
  reachable toDate t w ->
  (forall user1 user2,
     snd (updateUser toDate id user2 env2
            (snd (updateUser toDate id user1 env1 w)))
       = snd (updateUser toDate id user2 env2 w)) /\
  (forall stuff1 stuff2,
     snd (updateStuff id stuff2 env2 (snd (updateStuff id stuff1 env1 w)))
       = snd (updateStuff id stuff2 env2 w)) /\
  (forall slot1 slot2 updated,
     fst (updateSlot id slot2 env2 w) = inl updated ->
     updateSlot id slot2 env2 (snd (updateSlot id slot1 env1 w))
       = updateSlot id slot2 env2 w).
Proof.
  intros Hr. pose proof (reachable_keyed toDate t w Hr) as Hk.
  split; [|split].
  - intros user1 user2. rewrite !updateUser_run.
    destruct (memory0 w !! id) as [stored|] eqn:E; cbn [snd memory0];
      [|rewrite E; reflexivity].
    rewrite (Hk id stored E), lookup_insert_eq. cbn.
    rewrite (Hk id stored E), insert_insert_eq, mergeUser_twice. reflexivity.
  - intros stuff1 stuff2. rewrite !updateStuff_run.
    destruct (memory0 w !! id) as [stored|] eqn:E; cbn [snd memory0];
      [|rewrite E; reflexivity].
    rewrite (Hk id stored E), lookup_insert_eq. cbn.
    rewrite (Hk id stored E), insert_insert_eq, mergeStuff_twice. reflexivity.
  - intros slot1 slot2 updated. rewrite !updateSlot_run.
    destruct (memory0 w !! id) as [stored|] eqn:E; cbn; [|discriminate].
    destruct (memory0 w !! SlotPayload.ownerId slot2) eqn:E2; [|discriminate].
    destruct (memory0 w !! SlotPayload.stuffId slot2) eqn:E3; [|discriminate].
    intros _.
    destruct (memory0 w !! SlotPayload.ownerId slot1);
      [destruct (memory0 w !! SlotPayload.stuffId slot1)|];
      cbn; rewrite ?E, ?E2, ?E3; try reflexivity.
    rewrite lookup_insert_eq.
    destruct (lookup_insert_still (memory0 w) id
                (mergeSlot stored slot1 env1) _ _ E2) as [y2 ->].
    destruct (lookup_insert_still (memory0 w) id
                (mergeSlot stored slot1 env1) _ _ E3) as [y3 ->].
    rewrite insert_insert_eq, mergeSlot_twice. reflexivity.
Qed.

Lemma later_update_wins_witness :
  snd (updateStuff drillId drill env_c
         (snd (updateStuff drillId
                 (StuffPayload.mk "a saw" "https://example.org/saw.png" "nobody")
                 env_c userAndStuff)))
    = snd (updateStuff drillId drill env_c userAndStuff).
Proof.
  exact (proj1 (proj2 (later_update_wins sampleDate (ic_time env_b) userAndStuff
                         drillId env_c env_c userAndStuff_reachable))
           (StuffPayload.mk "a saw" "https://example.org/saw.png" "nobody") drill).
Defined.

(** X19: what the checking functions answer once a record is deleted.
    After [removeUser] of an id, [addSlot] for that owner and
    [transferStuffOwnability] to that owner answer their messages, and
    [updateSlot] for that owner answers a message too; each leaves the
    memory as the deletion left it.  After [deleteStuff] of an id,
    [updateStuff] and [transferStuffOwnability] of that id answer the
    message of a stuff not found and [updateSlot] for that stuff answers a
    message, while [addSlot] for that stuff answers a slot when its owner
    is another id that is stored. *)
Theorem after_deletion (id other : string) (slot : SlotPayload.t)
    (stuff : StuffPayload.t) (env env' : Env) (w : World) :
  (let w' := snd (removeUser id env w) in
   SlotPayload.ownerId slot = id ->
   addSlot slot env' w' = (inr (noUserForSlot slot), w') /\
   transferStuffOwnability other id env' w' = (inr (stuffNotFound other), w') /\
   (exists e, updateSlot other slot env' w' = (inr e, w'))) /\
  (let w' := snd (deleteStuff id env w) in
   SlotPayload.stuffId slot = id ->
   updateStuff id stuff env' w' = (inr (stuffNotFound id), w') /\
   transferStuffOwnability id other env' w' = (inr (stuffNotFound id), w') /\
   (exists e, updateSlot other slot env' w' = (inr e, w')) /\
   (SlotPayload.ownerId slot <> id ->
    is_Some (memory0 w !! SlotPayload.ownerId slot) ->
    fst (addSlot slot env' w') = inl (Slot.obj (newSlot slot env')))).
Proof.
  split; cbn zeta; intros Hs.
  - rewrite removeUser_run, addSlot_run, transferStuffOwnability_run,
      updateSlot_run. cbn. rewrite Hs, !lookup_delete_eq.
    split; [reflexivity|]. split.
    + destruct (delete id (memory0 w) !! other); reflexivity.
    + destruct (delete id (memory0 w) !! other); eexists; reflexivity.
  - rewrite deleteStuff_run, addSlot_run, transferStuffOwnability_run,
      updateSlot_run, updateStuff_run. cbn. rewrite Hs, !lookup_delete_eq.
    split; [reflexivity|]. split; [reflexivity|]. split.
    + destruct (delete id (memory0 w) !! other); [|eexists; reflexivity].
      destruct (delete id (memory0 w) !! SlotPayload.ownerId slot);
        eexists; reflexivity.
    + intros Hne [u Hu]. rewrite lookup_delete_ne by congruence.
      rewrite Hu. reflexivity.
Qed.

Lemma after_deletion_witness :
  let slot := SlotPayload.mk "a week" drillId bobId 100 200 true in
  let w' := snd (removeUser bobId env_c userAndStuff) in
  addSlot slot env_c w' = (inr (noUserForSlot slot), w') /\
  transferStuffOwnability drillId bobId env_c w'
    = (inr (stuffNotFound drillId), w') /\
  (exists e, updateSlot drillId slot env_c w' = (inr e, w')).
Proof.
  exact (proj1 (after_deletion bobId drillId
                  (SlotPayload.mk "a week" drillId bobId 100 200 true)
                  drill env_c env_c userAndStuff) eq_refl).
Defined.
